(** * markdown-viewer: the GitHub routes of the Markdown viewer

    A shallow embedding of the three route handlers that talk to the Git
    provider,

    - [src/app/api/pr/route.ts]        ([createBranchSlug], [POST]),
    - [src/app/api/repo/tree/route.ts] ([GET], here [GET_tree]),
    - [src/app/api/repo/file/route.ts] ([GET], here [GET_file]; the other
      revision of this route in the sources is [GET_file_alt]),

    and the properties of the publish and listing flows proved about them.

    Conventions.  A JavaScript string is the sequence of its UTF-16 code
    units, [list N].  A JSON object is a finite map from field names to
    values.  Every [await octokit.rest...] is a call into a provider whose
    state is abstract; the handler threads that state, records every call
    together with its outcome, and a rejected call aborts the [try] block
    with the error the provider raised. *)

From Stdlib Require Import NArith ZArith Lia String Ascii.
From stdpp Require Import base option list gmap strings sorting.

Local Open Scope N_scope.

(** ** JavaScript strings *)

Abbreviation jsstring := (list N).

(** The code unit of an ASCII character, and a string literal. *)
Definition ch (a : ascii) : N := N_of_ascii a.
Arguments ch : simpl never.
Definition js (s : string) : jsstring := List.map ch (list_ascii_of_string s).

Definition in_range (lo hi c : N) : bool := (lo <=? c) && (c <=? hi).
Definition is_lower (c : N) : bool := in_range (ch "a") (ch "z") c.
Definition is_upper (c : N) : bool := in_range (ch "A") (ch "Z") c.
Definition is_digit (c : N) : bool := in_range (ch "0") (ch "9") c.

(** [!s] is false exactly for a non-empty string. *)
Definition nonempty (s : jsstring) : bool :=
  match s with [] => false | _ :: _ => true end.

(** [x] as a condition, for [x : string | null | undefined]: the string when
    it is truthy. *)
Definition truthy (x : option jsstring) : option jsstring :=
  match x with
  | Some s => if nonempty s then Some s else None
  | None => None
  end.

(** [s.startsWith(p)], [s.endsWith(p)], [s.includes(p)]. *)
Fixpoint startsWith (s p : jsstring) : bool :=
  match p, s with
  | [], _ => true
  | _ :: _, [] => false
  | a :: p', b :: s' => (a =? b) && startsWith s' p'
  end.

Definition endsWith (s p : jsstring) : bool :=
  startsWith (reverse s) (reverse p).

Fixpoint includes (s p : jsstring) : bool :=
  startsWith s p ||
  match s with
  | [] => false
  | _ :: s' => includes s' p
  end.

(** [s.substring(0, n)]. *)
Definition substring0 (n : nat) (s : jsstring) : jsstring := take n s.

(** [s.toLowerCase()] on the strings the route applies it to: after the
    second [replace] only [a-zA-Z0-9-] is left, and there the Unicode
    lower-casing is the ASCII one. *)
Definition lower_unit (c : N) : N := if is_upper c then c + 32 else c.
Definition toLowerCase (s : jsstring) : jsstring := lower_unit <$> s.

(** [s.replace(/\//g, '-')]. *)
Definition slash_to_hyphen (c : N) : N := if c =? ch "/" then ch "-" else c.
Definition replace_slashes (s : jsstring) : jsstring := slash_to_hyphen <$> s.

(** The class [[a-zA-Z0-9\-]] and [s.replace(/[^a-zA-Z0-9\-]/g, '')]. *)
Definition slug_class (c : N) : bool :=
  is_lower c || is_upper c || is_digit c || (c =? ch "-").
Definition strip_non_slug (s : jsstring) : jsstring := List.filter slug_class s.

(** ** The clock *)

(** The UTC fields of a [Date], as [toISOString] prints them ([month] is
    the calendar month, 1 to 12). *)
Record Date := mkDate {
  year : N; month : N; day : N;
  hours : N; minutes : N; seconds : N; milliseconds : N
}.

(** A date the clock can give: the fields are in range and the year has
    four digits (later years print in the expanded [+YYYYYY] form). *)
Definition valid_date (d : Date) : bool :=
  (year d <=? 9999) &&
  (1 <=? month d) && (month d <=? 12) && (1 <=? day d) && (day d <=? 31) &&
  (hours d <? 24) && (minutes d <? 60) && (seconds d <? 60) &&
  (milliseconds d <? 1000).

(** Decimal digits of [n], zero-padded to width [w]. *)
Fixpoint pad (w : nat) (n : N) : jsstring :=
  match w with
  | O => []
  | S w' => pad w' (n / 10) ++ [ch "0" + n mod 10]
  end.

(** [d.toISOString()]: [YYYY-MM-DDTHH:mm:ss.sssZ]. *)
Definition toISOString (d : Date) : jsstring :=
  (if year d <=? 9999 then pad 4 (year d) else ch "+" :: pad 6 (year d))
  ++ js "-" ++ pad 2 (month d) ++ js "-" ++ pad 2 (day d)
  ++ js "T" ++ pad 2 (hours d) ++ js ":" ++ pad 2 (minutes d)
  ++ js ":" ++ pad 2 (seconds d) ++ js "." ++ pad 3 (milliseconds d)
  ++ js "Z".

(** [s.replace(/[:\-]/g, '')]. *)
Definition colon_or_hyphen (c : N) : bool := (c =? ch ":") || (c =? ch "-").
Definition strip_colon_hyphen (s : jsstring) : jsstring :=
  List.filter (λ c, negb (colon_or_hyphen c)) s.

(** [s.replace(/\..+/, '')]: the leftmost dot that is followed by at least
    one character other than a line terminator goes, with everything after
    it up to the next line terminator. *)
Definition is_line_terminator (c : N) : bool :=
  (c =? 10) || (c =? 13) || (c =? 8232) || (c =? 8233).

Fixpoint rest_of_line (s : jsstring) : jsstring :=
  match s with
  | [] => []
  | c :: r => if is_line_terminator c then s else rest_of_line r
  end.

Fixpoint strip_dot_suffix (s : jsstring) : jsstring :=
  match s with
  | [] => []
  | c :: r =>
      if c =? ch "." then
        match r with
        | [] => [c]
        | c2 :: r2 =>
            if is_line_terminator c2 then c :: strip_dot_suffix r
            else rest_of_line r2
        end
      else c :: strip_dot_suffix r
  end.

(** [s.replace('T', '-')]: the first occurrence only. *)
Fixpoint replace_first (x y : N) (s : jsstring) : jsstring :=
  match s with
  | [] => []
  | c :: r => if c =? x then y :: r else c :: replace_first x y r
  end.

(** ** [createBranchSlug] *)

(** The constant [slug] of [createBranchSlug]. *)
Definition branch_slug (path : jsstring) : jsstring :=
  substring0 40 (toLowerCase (strip_non_slug (replace_slashes path))).

(** The constant [timestamp] of [createBranchSlug]; [now] is [new Date()]. *)
Definition branch_timestamp (now : Date) : jsstring :=
  replace_first (ch "T") (ch "-")
    (strip_dot_suffix (strip_colon_hyphen (toISOString now))).

(** The digits of the date and of the time, as the timestamp shows them. *)
Definition date_digits (d : Date) : jsstring :=
  pad 4 (year d) ++ pad 2 (month d) ++ pad 2 (day d).
Definition time_digits (d : Date) : jsstring :=
  pad 2 (hours d) ++ pad 2 (minutes d) ++ pad 2 (seconds d).

Definition createBranchSlug (path : jsstring) (now : Date) : jsstring :=
  js "docs/" ++ branch_slug path ++ js "-" ++ branch_timestamp now.

(** The slug written per code unit: what one unit of the path contributes. *)
Definition slug_unit (c : N) : option N :=
  if c =? ch "/" then Some (ch "-")
  else if is_upper c then Some (c + 32)
  else if is_lower c || is_digit c || (c =? ch "-") then Some c
  else None.

(** [^[a-z0-9\-]{1,40}$]. *)
Definition slug_pattern_unit (c : N) : bool :=
  is_lower c || is_digit c || (c =? ch "-").
Definition matches_slug_pattern (s : jsstring) : bool :=
  (1 <=? length s)%nat && (length s <=? 40)%nat && forallb slug_pattern_unit s.

(** The slug as the specification words it: lowercased, everything that is
    not a letter or a digit stripped, truncated to 40. *)
Definition is_alnum (c : N) : bool := is_lower c || is_upper c || is_digit c.
Definition spec_slugify (path : jsstring) : jsstring :=
  take 40 (List.filter is_alnum (toLowerCase path)).

(** The same, reading the specification as keeping hyphens too. *)
Definition spec_slugify_hyphen (path : jsstring) : jsstring :=
  take 40 (List.filter slug_pattern_unit (toLowerCase path)).

(** ** JSON values and HTTP responses *)

Inductive JVal :=
| JStr (s : jsstring)
| JNum (n : Z)
| JStrs (l : list jsstring).

(** [NextResponse.json(body, { status })]; without the second argument the
    status is 200. *)
Record Response := mkResponse {
  body : gmap string JVal;
  status : N
}.

Definition NextResponse_json (b : list (string * JVal)) (st : N) : Response :=
  mkResponse (list_to_map b) st.

Definition error_response (msg : string) (st : N) : Response :=
  NextResponse_json [("error"%string, JStr (js msg))] st.

(** ** The provider *)

(** What a rejected provider call throws, as far as the handlers look at
    it: [error.status], [error.response?.headers?.['x-ratelimit-remaining']]
    and [error.message]. *)
Record RequestError := mkRequestError {
  err_status : option N;
  err_ratelimit_remaining : option jsstring;
  err_message : option jsstring
}.

Definition Result (A : Type) : Type := RequestError + A.

(** [repos.get]: [data.default_branch]. *)
Record RepoData := mkRepoData { default_branch : jsstring }.

(** [repos.getContent]: [data] is an array for a directory, and otherwise
    one object with a [type] ([file], [symlink], [submodule]). *)
Record ContentEntry := mkContentEntry {
  cf_type : jsstring;
  cf_sha : jsstring;
  cf_content : jsstring;
  cf_name : jsstring;
  cf_path : jsstring
}.

Inductive ContentData :=
| ContentArray (entries : list ContentEntry)
| ContentObject (entry : ContentEntry).

(** [git.getRef]: [data.object.sha]. *)
Record RefData := mkRefData { object_sha : jsstring }.

(** [git.getTree]: [data.tree], whose items have optional fields. *)
Record TreeItem := mkTreeItem {
  item_path : option jsstring;
  item_type : option jsstring;
  item_sha : option jsstring
}.
Record TreeData := mkTreeData { tree : list TreeItem }.

(** [pulls.create]: [data.html_url] and [data.number]. *)
Record PullData := mkPullData { html_url : jsstring; number : Z }.

(** The arguments of the calls with many of them. *)
Record ContentArgs := mkContentArgs {
  gc_owner : jsstring; gc_repo : jsstring; gc_path : jsstring;
  gc_ref : option jsstring
}.
Record RefArgs := mkRefArgs {
  rf_owner : jsstring; rf_repo : jsstring; rf_ref : jsstring
}.
Record TreeArgs := mkTreeArgs {
  tr_owner : jsstring; tr_repo : jsstring; tr_tree_sha : jsstring;
  tr_recursive : jsstring
}.
Record CreateRefArgs := mkCreateRefArgs {
  cr_owner : jsstring; cr_repo : jsstring; cr_ref : jsstring;
  cr_sha : jsstring
}.
Record CommitArgs := mkCommitArgs {
  cm_owner : jsstring; cm_repo : jsstring; cm_path : jsstring;
  cm_message : jsstring; cm_content : jsstring; cm_branch : jsstring;
  cm_sha : jsstring
}.
Record PullArgs := mkPullArgs {
  pl_owner : jsstring; pl_repo : jsstring; pl_title : jsstring;
  pl_body : jsstring; pl_head : jsstring; pl_base : jsstring
}.

(** A provider over a state [W] of its own: every call answers or throws,
    and may change the state. *)
Record Octokit (W : Type) := mkOctokit {
  repos_get : jsstring → jsstring → W → Result RepoData * W;
  repos_getContent : ContentArgs → W → Result ContentData * W;
  git_getRef : RefArgs → W → Result RefData * W;
  git_getTree : TreeArgs → W → Result TreeData * W;
  git_createRef : CreateRefArgs → W → Result unit * W;
  repos_createOrUpdateFileContents : CommitArgs → W → Result unit * W;
  pulls_create : PullArgs → W → Result PullData * W
}.
Arguments repos_get {W}.
Arguments repos_getContent {W}.
Arguments git_getRef {W}.
Arguments git_getTree {W}.
Arguments git_createRef {W}.
Arguments repos_createOrUpdateFileContents {W}.
Arguments pulls_create {W}.

(** One provider call, with what came back. *)
Inductive Event :=
| EvReposGet (owner repo : jsstring) (r : Result RepoData)
| EvGetContent (a : ContentArgs) (r : Result ContentData)
| EvGetRef (a : RefArgs) (r : Result RefData)
| EvGetTree (a : TreeArgs) (r : Result TreeData)
| EvCreateRef (a : CreateRefArgs) (r : Result unit)
| EvCreateOrUpdateFileContents (a : CommitArgs) (r : Result unit)
| EvPullsCreate (a : PullArgs) (r : Result PullData).

Definition result_error {A} (r : Result A) : option RequestError :=
  match r with inl e => Some e | inr _ => None end.

(** The error a call was rejected with, if it was. *)
Definition event_error (ev : Event) : option RequestError :=
  match ev with
  | EvReposGet _ _ r => result_error r
  | EvGetContent _ r => result_error r
  | EvGetRef _ r => result_error r
  | EvGetTree _ r => result_error r
  | EvCreateRef _ r => result_error r
  | EvCreateOrUpdateFileContents _ r => result_error r
  | EvPullsCreate _ r => result_error r
  end.

Definition event_ok (ev : Event) : bool :=
  match event_error ev with Some _ => false | None => true end.

(** The calls that write to the repository: branch creation, commit, pull
    request creation. *)
Definition is_write (ev : Event) : bool :=
  match ev with
  | EvCreateRef _ _ | EvCreateOrUpdateFileContents _ _ | EvPullsCreate _ _ =>
      true
  | _ => false
  end.

(** ** Listing: the Markdown blobs of a tree, sorted *)

(** The order of [Array.prototype.sort()] without a comparator: strings
    compared code unit by code unit. *)
Fixpoint lex_leb (a b : jsstring) : bool :=
  match a, b with
  | [], _ => true
  | _ :: _, [] => false
  | x :: a', y :: b' => (x <? y) || ((x =? y) && lex_leb a' b')
  end.

Definition lex_le (a b : jsstring) : Prop := lex_leb a b = true.

#[global] Instance lex_le_dec (a b : jsstring) : Decision (lex_le a b).
Proof. unfold lex_le. apply _. Defined.

Definition array_sort (l : list jsstring) : list jsstring :=
  merge_sort lex_le l.

Definition is_markdown_path (p : jsstring) : bool :=
  endsWith p (js ".md") || endsWith p (js ".markdown").

(** The predicate of [.filter(...)]:
    [item.type === 'blob' && item.path && (item.path.endsWith('.md') ||
    item.path.endsWith('.markdown'))]. *)
Definition is_markdown_blob (item : TreeItem) : bool :=
  bool_decide (item_type item = Some (js "blob")) &&
  match truthy (item_path item) with
  | Some p => is_markdown_path p
  | None => false
  end.

(** [.filter(...).map((item) => item.path!)]: every item that passes the
    filter has a path. *)
Definition markdown_paths (items : list TreeItem) : list jsstring :=
  omap item_path (List.filter is_markdown_blob items).

(** The constant [markdownFiles] of the tree route. *)
Definition markdownFiles (items : list TreeItem) : list jsstring :=
  array_sort (markdown_paths items).

(** ** The [catch] blocks *)

(** [error.response?.headers?.['x-ratelimit-remaining'] === '0' ||
    error.message?.includes('rate limit')]. *)
Definition rate_limit_signal (error : RequestError) : bool :=
  bool_decide (err_ratelimit_remaining error = Some (js "0")) ||
  match err_message error with
  | Some m => includes m (js "rate limit")
  | None => false
  end.

Definition has_status (error : RequestError) (st : N) : bool :=
  bool_decide (err_status error = Some st).

(** [catch] of the publish route. *)
Definition POST_catch (error : RequestError) : Response :=
  if has_status error 401 then
    error_response "Unauthorized or insufficient scope" 401
  else if has_status error 403 then
    if rate_limit_signal error then error_response "Rate limit exceeded" 429
    else error_response "Unauthorized or insufficient scope" 403
  else if has_status error 404 then
    error_response "Repo or path not found" 404
  else if has_status error 409 then
    error_response "File changed upstream" 409
  else error_response "Failed to create pull request" 500.

(** [catch] of the tree route. *)
Definition GET_tree_catch (error : RequestError) : Response :=
  if has_status error 404 then
    error_response "Repository not found or branch does not exist" 404
  else if has_status error 403 then
    error_response
      "Rate limit exceeded. Consider adding a GITHUB_TOKEN to .env.local" 403
  else error_response "Failed to fetch repository tree" 500.

(** [catch] of the file route, [src/app/api/repo/file/route.ts]. *)
Definition GET_file_catch (error : RequestError) : Response :=
  if has_status error 404 then error_response "File not found" 404
  else if has_status error 403 then
    error_response
      "Rate limit exceeded. Consider adding a GITHUB_TOKEN to .env.local" 403
  else error_response "Failed to fetch file content" 500.

(** [catch] of the other revision of the file route. *)
Definition GET_file_alt_catch (error : RequestError) : Response :=
  if has_status error 401 then
    error_response "Unauthorized or insufficient scope. Check GITHUB_TOKEN."
      401
  else if has_status error 403 then
    if rate_limit_signal error then
      error_response "Rate limit exceeded. Add or adjust GITHUB_TOKEN." 403
    else
      error_response "Unauthorized or insufficient scope. Check GITHUB_TOKEN."
        403
  else if has_status error 404 then
    error_response "Repo or path not found." 404
  else error_response "Failed to fetch file content" 500.

(** ** Requests *)

(** The body of a publish request as [request.json()] gives it; a field
    that is absent is [None]. *)
Record CreatePRRequest := mkCreatePRRequest {
  owner : option jsstring;
  repo : option jsstring;
  path : option jsstring;
  baseBranch : option jsstring;
  baseSha : option jsstring;
  markdown : option jsstring;
  prTitle : option jsstring;
  prBody : option jsstring
}.

(** [request.nextUrl.searchParams]: [get(name)] is [params !! name]. *)
Abbreviation SearchParams := (gmap string jsstring).

(** The two conversions the routes ask of the Node runtime:
    [Buffer.from(s, 'base64').toString('utf-8')] and
    [Buffer.from(s, 'utf-8').toString('base64')]. *)
Record Buffer := mkBuffer {
  base64_to_utf8 : jsstring → jsstring;
  utf8_to_base64 : jsstring → jsstring
}.

(** ** The handler monad: provider state, call log, exceptions *)

(** Provider state and the log of the calls made so far, oldest first. *)
Record St (W : Type) := mkSt { world : W; calls : list Event }.
Arguments mkSt {W}.
Arguments world {W}.
Arguments calls {W}.

(** A block either completes with a value or throws. *)
Inductive Outcome (A : Type) :=
| Done (a : A)
| Threw (e : RequestError).
Arguments Done {A}.
Arguments Threw {A}.

Section Handlers.
Context {W : Type}.
Variable octokit : Octokit W.

Definition M (A : Type) : Type := St W → Outcome A * St W.

Definition ret {A} (a : A) : M A := λ s, (Done a, s).

Definition bind {A B} (m : M A) (k : A → M B) : M B :=
  λ s, match m s with
       | (Done a, s') => k a s'
       | (Threw e, s') => (Threw e, s')
       end.

(** [await] of one provider call: run it, log it, throw if rejected. *)
Definition await {A} (call : W → Result A * W)
    (ev : Result A → Event) : M A :=
  λ s, let '(r, w') := call (world s) in
       let s' := mkSt w' (calls s ++ [ev r]) in
       match r with
       | inl e => (Threw e, s')
       | inr a => (Done a, s')
       end.

(** [try { ... } catch (error) { return handler(error) }]. *)
Definition try_catch (m : M Response) (handler : RequestError → Response)
    : St W → Response * St W :=
  λ s, match m s with
       | (Done r, s') => (r, s')
       | (Threw e, s') => (handler e, s')
       end.

#[local] Instance M_ret : MRet M := @ret.
#[local] Instance M_bind : MBind M := λ A B k m, bind m k.

Variable buffer : Buffer.

(** [branch || (await octokit.rest.repos.get({ owner, repo }))
    .data.default_branch], as the [if (!branch)] of both routes. *)
Definition resolve_branch (owner repo : jsstring)
    (branch : option jsstring) : M jsstring :=
  match truthy branch with
  | Some b => mret b
  | None =>
      repoData ← await (repos_get octokit owner repo)
                        (EvReposGet owner repo);
      mret (default_branch repoData)
  end.

(** *** [POST /api/pr] *)

Definition conflictResponse (currentSha upstreamMarkdown : jsstring)
    : Response :=
  NextResponse_json
    [("error"%string, JStr (js "File changed upstream"));
     ("upstreamSha"%string, JStr currentSha);
     ("upstreamMarkdown"%string, JStr upstreamMarkdown)] 409.

(** The [try] block; [request_json] is what [await request.json()] gives
    or throws, [now] what the clock reads when the branch is named. *)
Definition POST_try (now : Date) (request_json : Result CreatePRRequest)
    : M Response :=
  match request_json with
  | inl e => λ s, (Threw e, s)
  | inr body =>
    match truthy (owner body), truthy (repo body), truthy (path body),
          truthy (baseSha body), truthy (markdown body) with
    | Some owner, Some repo, Some path, Some baseSha, Some markdown =>
      (* 1. Resolve base branch *)
      resolvedBaseBranch ← resolve_branch owner repo (baseBranch body);
      (* 2. Check for upstream changes (optimistic lock) *)
      let content_args :=
        mkContentArgs owner repo path (Some resolvedBaseBranch) in
      currentFile ← await (repos_getContent octokit content_args)
                          (EvGetContent content_args);
      match currentFile with
      | ContentArray _ => mret (error_response "Path is not a file" 400)
      | ContentObject data =>
        if negb (bool_decide (cf_type data = js "file")) then
          mret (error_response "Path is not a file" 400)
        else
          let currentSha := cf_sha data in
          if negb (bool_decide (currentSha = baseSha)) then
            let upstreamMarkdown :=
              base64_to_utf8 buffer (cf_content data) in
            mret (conflictResponse currentSha upstreamMarkdown)
          else
            (* 3. Get base branch HEAD commit SHA *)
            let ref_args :=
              mkRefArgs owner repo (js "heads/" ++ resolvedBaseBranch) in
            baseBranchRef ← await (git_getRef octokit ref_args)
                                  (EvGetRef ref_args);
            let baseCommitSha := object_sha baseBranchRef in
            (* 4. Create new branch *)
            let newBranchName := createBranchSlug path now in
            let create_args :=
              mkCreateRefArgs owner repo
                (js "refs/heads/" ++ newBranchName) baseCommitSha in
            _ ← await (git_createRef octokit create_args)
                      (EvCreateRef create_args);
            (* 5. Update file on new branch *)
            let commitMessage :=
              js "docs: update " ++ path ++ js " via editor" in
            let commit_args :=
              mkCommitArgs owner repo path commitMessage
                (utf8_to_base64 buffer markdown) newBranchName currentSha in
            _ ← await (repos_createOrUpdateFileContents octokit commit_args)
                      (EvCreateOrUpdateFileContents commit_args);
            (* 6. Create pull request *)
            let pull_args :=
              mkPullArgs owner repo
                (default (js "Update " ++ path) (truthy (prTitle body)))
                (default (js "Edited via Notion-like editor")
                   (truthy (prBody body)))
                newBranchName resolvedBaseBranch in
            prData ← await (pulls_create octokit pull_args)
                           (EvPullsCreate pull_args);
            mret (NextResponse_json
                    [("prUrl"%string, JStr (html_url prData));
                     ("prNumber"%string, JNum (number prData))] 200)
      end
    | _, _, _, _, _ =>
      mret (error_response
              "owner, repo, path, baseSha, and markdown are required" 400)
    end
  end.

Definition POST (now : Date) (request_json : Result CreatePRRequest)
    : St W → Response * St W :=
  try_catch (POST_try now request_json) POST_catch.

(** *** [GET /api/repo/tree] *)

Definition GET_tree_try (searchParams : SearchParams) : M Response :=
  let owner := searchParams !! "owner"%string in
  let repo := searchParams !! "repo"%string in
  let branch := searchParams !! "branch"%string in
  match truthy owner, truthy repo with
  | Some owner, Some repo =>
    (* Get default branch if none provided *)
    branch ← resolve_branch owner repo branch;
    (* Get branch reference to get the commit SHA *)
    let ref_args := mkRefArgs owner repo (js "heads/" ++ branch) in
    ref ← await (git_getRef octokit ref_args) (EvGetRef ref_args);
    let sha := object_sha ref in
    (* Get the tree recursively *)
    let tree_args := mkTreeArgs owner repo sha (js "1") in
    tree_data ← await (git_getTree octokit tree_args) (EvGetTree tree_args);
    mret (NextResponse_json
            [("branch"%string, JStr branch);
             ("files"%string, JStrs (markdownFiles (tree tree_data)))] 200)
  | _, _ => mret (error_response "owner and repo are required" 400)
  end.

Definition GET_tree (searchParams : SearchParams) : St W → Response * St W :=
  try_catch (GET_tree_try searchParams) GET_tree_catch.

(** *** [GET /api/repo/file] *)

Definition GET_file_try (searchParams : SearchParams) : M Response :=
  let owner := searchParams !! "owner"%string in
  let repo := searchParams !! "repo"%string in
  let path := searchParams !! "path"%string in
  let ref := searchParams !! "ref"%string in
  match truthy owner, truthy repo, truthy path with
  | Some owner, Some repo, Some path =>
    let content_args := mkContentArgs owner repo path (truthy ref) in
    content ← await (repos_getContent octokit content_args)
                    (EvGetContent content_args);
    (* Ensure it's a file (not a directory) *)
    match content with
    | ContentArray _ => mret (error_response "Not a file" 400)
    | ContentObject data =>
      if negb (bool_decide (cf_type data = js "file")) then
        mret (error_response "Not a file" 400)
      else
        (* Decode base64 content *)
        let markdown := base64_to_utf8 buffer (cf_content data) in
        mret (NextResponse_json
                [("markdown"%string, JStr markdown);
                 ("sha"%string, JStr (cf_sha data));
                 ("name"%string, JStr (cf_name data));
                 ("path"%string, JStr (cf_path data))] 200)
    end
  | _, _, _ => mret (error_response "owner, repo, and path are required" 400)
  end.

Definition GET_file (searchParams : SearchParams) : St W → Response * St W :=
  try_catch (GET_file_try searchParams) GET_file_catch.

(** The other revision: the same [try] block, its own [catch]. *)
Definition GET_file_alt (searchParams : SearchParams)
    : St W → Response * St W :=
  try_catch (GET_file_try searchParams) GET_file_alt_catch.

(** A handler run from a provider state, with an empty call log. *)
Definition start (w : W) : St W := mkSt w [].
End Handlers.

(** The response and the provider calls of a finished run, oldest call
    first. *)
Definition response {W} (r : Response * St W) : Response := r.1.
Definition trace {W} (r : Response * St W) : list Event := calls r.2.

(** The answers of the publish route's [catch] block, under the names of
    the error taxonomy. *)
Definition Unauthorized (st : N) : Response :=
  error_response "Unauthorized or insufficient scope" st.
Definition RateLimited : Response := error_response "Rate limit exceeded" 429.
Definition NotFound : Response := error_response "Repo or path not found" 404.
Definition Conflict : Response := error_response "File changed upstream" 409.
Definition Unknown : Response :=
  error_response "Failed to create pull request" 500.

(** [Array.isArray(data) || data.type !== 'file'], negated. *)
Definition is_file (data : ContentData) : bool :=
  match data with
  | ContentArray _ => false
  | ContentObject entry => bool_decide (cf_type entry = js "file")
  end.

(** ** An example provider: one repository holding one Markdown file *)

Module Example.
(** The repository: the blob SHA and the stored content of [README.md],
    the tree, what has been written so far, the error (if any) with which
    the provider rejects the creation of a branch, and the blob SHA (if
    any) that another writer pushes right after the branch is created. *)
Record Repo := mkRepo {
  file_sha : jsstring;
  file_content : jsstring;
  tree_items : list TreeItem;
  branches : list jsstring;
  commits : list CommitArgs;
  pulls : list PullArgs;
  fault : option RequestError;
  race : option jsstring
}.

Definition not_found : RequestError :=
  mkRequestError (Some 404) None (Some (js "Not Found")).
Definition sha_mismatch : RequestError :=
  mkRequestError (Some 409) None (Some (js "README.md does not match")).
Definition throttled : RequestError :=
  mkRequestError (Some 403) (Some (js "0"))
    (Some (js "API rate limit exceeded")).

Definition readme (w : Repo) : ContentEntry :=
  mkContentEntry (js "file") (file_sha w) (file_content w)
    (js "README.md") (js "README.md").
Definition guide : ContentEntry :=
  mkContentEntry (js "file") (js "9a1") (js "") (js "guide.md")
    (js "docs/guide.md").

Definition blob (p : string) : TreeItem :=
  mkTreeItem (Some (js p)) (Some (js "blob")) (Some (js "1f")).

Definition items : list TreeItem :=
  [blob "src/index.ts";
   mkTreeItem (Some (js "docs")) (Some (js "tree")) (Some (js "2e"));
   blob "docs/guide.md"; blob "README.md"; blob "CHANGES.markdown"].

Definition octokit : Octokit Repo := {|
  repos_get _ _ w := (inr (mkRepoData (js "main")), w);
  repos_getContent a w :=
    if decide (gc_path a = js "README.md") then
      (inr (ContentObject (readme w)), w)
    else if decide (gc_path a = js "docs") then
      (inr (ContentArray [guide]), w)
    else (inl not_found, w);
  git_getRef _ w := (inr (mkRefData (js "c0ffee")), w);
  git_getTree _ w := (inr (mkTreeData (tree_items w)), w);
  git_createRef a w :=
    match fault w with
    | Some e => (inl e, w)
    | None =>
        (inr (),
         mkRepo (default (file_sha w) (race w)) (file_content w)
           (tree_items w) (cr_ref a :: branches w) (commits w) (pulls w)
           (fault w) None)
    end;
  repos_createOrUpdateFileContents a w :=
    if decide (cm_sha a = file_sha w) then
      (inr (),
       mkRepo (file_sha w) (file_content w) (tree_items w) (branches w)
         (a :: commits w) (pulls w) (fault w) (race w))
    else (inl sha_mismatch, w);
  pulls_create a w :=
    (inr (mkPullData (js "https://github.com/acme/site/pull/7") 7),
     mkRepo (file_sha w) (file_content w) (tree_items w) (branches w)
       (commits w) (a :: pulls w) (fault w) (race w))
|}.

(** A runtime for the examples, in which stored content is plain text. *)
Definition buffer : Buffer := mkBuffer id id.

Definition repo0 : Repo :=
  mkRepo (js "abc123") (js "# Hello") items [] [] [] None None.
Definition repo_throttled : Repo :=
  mkRepo (js "abc123") (js "# Hello") items [] [] [] (Some throttled) None.
Definition repo_raced : Repo :=
  mkRepo (js "abc123") (js "# Hello") items [] [] [] None
    (Some (js "def456")).
Definition repo_twice : Repo :=
  mkRepo (js "abc123") (js "# Hello") [blob "a.md"; blob "a.md"]
    [] [] [] None None.

Definition now : Date := mkDate 2025 9 7 14 3 59 123.

(** A publish request for [README.md] edited from the blob [base]. *)
Definition publish (base : string) : CreatePRRequest :=
  mkCreatePRRequest (Some (js "acme")) (Some (js "site"))
    (Some (js "README.md")) None (Some (js base)) (Some (js "# Hello!"))
    None None.

(** The calls that publishing this request makes to write. *)
Definition new_ref : CreateRefArgs :=
  mkCreateRefArgs (js "acme") (js "site")
    (js "refs/heads/docs/readmemd-20250907-140359") (js "c0ffee").
Definition commit : CommitArgs :=
  mkCommitArgs (js "acme") (js "site") (js "README.md")
    (js "docs: update README.md via editor") (js "# Hello!")
    (js "docs/readmemd-20250907-140359") (js "abc123").

Definition query (kvs : list (string * string)) : SearchParams :=
  list_to_map (prod_map id js <$> kvs).

(** The listing request [?owner=acme&repo=site], and the file request
    for the directory [docs]. *)
Definition list_site : SearchParams :=
  query [("owner", "acme"); ("repo", "site")]%string.
Definition fetch_docs : SearchParams :=
  query [("owner", "acme"); ("repo", "site"); ("path", "docs")]%string.
Definition tree_args : TreeArgs :=
  mkTreeArgs (js "acme") (js "site") (js "c0ffee") (js "1").
End Example.

(** * Properties *)

(** ** Code units and classes *)

(** Replace every character literal by its code unit. *)
Ltac eval_ch :=
  repeat match goal with
  | |- context [ch ?a] =>
      let v := eval vm_compute in (ch a) in change (ch a) with v
  | H : context [ch ?a] |- _ =>
      let v := eval vm_compute in (ch a) in change (ch a) with v in H
  end.

Ltac unfold_units :=
  unfold slug_unit, slug_class, slug_pattern_unit, is_alnum, lower_unit,
    slash_to_hyphen, colon_or_hyphen, is_line_terminator, is_lower, is_upper,
    is_digit, in_range in *;
  eval_ch.

(** Decide a goal about comparisons of code units by cases on each test. *)
Ltac unit_case :=
  match goal with
  | |- context [N.eqb ?a ?b] => destruct (N.eqb_spec a b)
  | |- context [N.leb ?a ?b] => destruct (N.leb_spec a b)
  | |- context [N.ltb ?a ?b] => destruct (N.ltb_spec a b)
  | H : context [N.eqb ?a ?b] |- _ => destruct (N.eqb_spec a b)
  | H : context [N.leb ?a ?b] |- _ => destruct (N.leb_spec a b)
  | H : context [N.ltb ?a ?b] |- _ => destruct (N.ltb_spec a b)
  end.

Ltac units :=
  unfold_units;
  repeat (unit_case; try lia; cbn in *; unfold_units);
  try done; try lia; try (f_equal; lia).

Lemma slug_pipeline_unit (c : N) :
  toLowerCase (strip_non_slug [slash_to_hyphen c]) = option_list (slug_unit c).
Proof. cbn. units. Qed.

(** The three string operations of the slug act on each code unit on its
    own. *)
Lemma slug_pipeline (path : jsstring) :
  toLowerCase (strip_non_slug (replace_slashes path)) = omap slug_unit path.
Proof.
  induction path as [|c path IH]; [done|].
  pose proof (slug_pipeline_unit c) as Hc.
  unfold toLowerCase, strip_non_slug, replace_slashes in *. cbn in *.
  destruct (slug_class (slash_to_hyphen c)), (slug_unit c);
    cbn in *; simplify_eq; by rewrite ?IH.
Qed.

Lemma slug_unit_pattern (c d : N) :
  slug_unit c = Some d → slug_pattern_unit d = true.
Proof. intros H. units; simplify_eq; units. Qed.

Lemma branch_slug_units (path : jsstring) :
  branch_slug path = take 40 (omap slug_unit path).
Proof. unfold branch_slug, substring0. by rewrite slug_pipeline. Qed.

Lemma branch_slug_pattern (path : jsstring) :
  Forall (λ c, slug_pattern_unit c = true) (branch_slug path).
Proof.
  rewrite branch_slug_units. apply Forall_take, Forall_forall.
  intros d [c [_ Hc]]%list_elem_of_omap. by eapply slug_unit_pattern.
Qed.

Lemma branch_slug_length (path : jsstring) :
  (length (branch_slug path) ≤ 40)%nat.
Proof. rewrite branch_slug_units, length_take. lia. Qed.

(** ** The timestamp *)

Lemma pad_length (w : nat) (n : N) : length (pad w n) = w.
Proof.
  revert n. induction w as [|w IH]; intros n; [done|].
  cbn. rewrite length_app, IH. cbn. lia.
Qed.

Lemma pad_digits (w : nat) (n : N) :
  Forall (λ c, is_digit c = true) (pad w n).
Proof.
  revert n. induction w as [|w IH]; intros n; cbn; [constructor|].
  apply Forall_app. split; [apply IH|].
  constructor; [|constructor].
  assert (n mod 10 < 10) as Hk by (apply N.mod_upper_bound; lia).
  generalize dependent (n mod 10). intros k Hk. units.
Qed.

(** A run of digits passes the three replacements unchanged. *)
Lemma strip_colon_hyphen_digits (s : jsstring) :
  Forall (λ c, is_digit c = true) s → strip_colon_hyphen s = s.
Proof.
  induction 1 as [|c s Hc _ IH]; [done|].
  unfold strip_colon_hyphen in *. cbn. rewrite IH.
  replace (colon_or_hyphen c) with false by units. done.
Qed.

Lemma strip_colon_hyphen_app (s t : jsstring) :
  strip_colon_hyphen (s ++ t) = strip_colon_hyphen s ++ strip_colon_hyphen t.
Proof. apply List.filter_app. Qed.

Lemma rest_of_line_no_terminator (s : jsstring) :
  Forall (λ c, is_line_terminator c = false) s → rest_of_line s = [].
Proof. induction 1 as [|c s Hc _ IH]; [done|]. cbn. by rewrite Hc. Qed.

Lemma strip_dot_suffix_at_dot (p r : jsstring) (c : N) :
  Forall (λ c, c ≠ ch ".") p →
  is_line_terminator c = false →
  strip_dot_suffix (p ++ ch "." :: c :: r) = p ++ rest_of_line r.
Proof.
  intros Hp Hc. induction Hp as [|x p Hx _ IH]; cbn.
  - by rewrite N.eqb_refl, Hc.
  - destruct (N.eqb_spec x (ch ".")); [done|]. by rewrite IH.
Qed.

Lemma replace_first_at (x y : N) (p r : jsstring) :
  Forall (λ c, c ≠ x) p →
  replace_first x y (p ++ x :: r) = p ++ y :: r.
Proof.
  induction 1 as [|c p Hc _ IH]; cbn.
  - by rewrite N.eqb_refl.
  - destruct (N.eqb_spec c x); [done|]. by rewrite IH.
Qed.

Lemma digit_facts (c : N) :
  is_digit c = true →
  c ≠ ch "." ∧ c ≠ ch "T" ∧ is_line_terminator c = false.
Proof. intros H. repeat split; units. Qed.

Lemma date_digits_digits (d : Date) :
  Forall (λ c, is_digit c = true) (date_digits d).
Proof. unfold date_digits. rewrite !Forall_app. auto using pad_digits. Qed.

Lemma time_digits_digits (d : Date) :
  Forall (λ c, is_digit c = true) (time_digits d).
Proof. unfold time_digits. rewrite !Forall_app. auto using pad_digits. Qed.

(** For a four-digit year the timestamp is [YYYYMMDD-HHMMSS]. *)
Lemma branch_timestamp_format (now : Date) :
  year now <= 9999 →
  branch_timestamp now = date_digits now ++ js "-" ++ time_digits now.
Proof.
  intros Hy. unfold branch_timestamp, toISOString.
  destruct (N.leb_spec (year now) 9999) as [_|]; [|lia].
  assert (strip_colon_hyphen (js "-") = []) as Hh by done.
  assert (strip_colon_hyphen (js ":") = []) as Hc by done.
  assert (strip_colon_hyphen (js "T") = js "T") as HT by done.
  assert (strip_colon_hyphen (js ".") = js ".") as Hd by done.
  assert (strip_colon_hyphen (js "Z") = js "Z") as HZ by done.
  rewrite !strip_colon_hyphen_app, Hh, Hc, HT, Hd, HZ,
    !(strip_colon_hyphen_digits _ (pad_digits _ _)).
  cbn [app].
  change (pad 3 (milliseconds now)) with
    (pad 2 (milliseconds now / 10) ++ [ch "0" + milliseconds now mod 10]).
  destruct (pad 2 (milliseconds now / 10)) as [|m1 ms] eqn:Hms.
  { pose proof (pad_length 2 (milliseconds now / 10)) as Hl.
    by rewrite Hms in Hl. }
  assert (Forall (λ c, is_digit c = true) (m1 :: ms ++
            [ch "0" + milliseconds now mod 10])) as Hmsd.
  { rewrite app_comm_cons, <- Hms. apply (pad_digits 3). }
  set (front := pad 4 (year now) ++ pad 2 (month now) ++ pad 2 (day now) ++
                js "T" ++ time_digits now).
  replace (pad 4 (year now) ++ pad 2 (month now) ++ pad 2 (day now) ++
           js "T" ++ pad 2 (hours now) ++ pad 2 (minutes now) ++
           pad 2 (seconds now) ++ js "." ++
           ((m1 :: ms) ++ [ch "0" + milliseconds now mod 10]) ++ js "Z")
    with (front ++ ch "." :: m1 ::
            (ms ++ [ch "0" + milliseconds now mod 10] ++ js "Z")).
  2:{ unfold front, time_digits. cbn. by rewrite <- !app_assoc. }
  rewrite strip_dot_suffix_at_dot.
  - rewrite rest_of_line_no_terminator, app_nil_r.
    + unfold front. rewrite !app_assoc.
      rewrite <- (app_assoc (pad 4 _)), <- (app_assoc (pad 4 _ ++ _)).
      change (js "T" ++ time_digits now) with (ch "T" :: time_digits now).
      fold (date_digits now).
      rewrite <- app_assoc. cbn [app].
      apply replace_first_at.
      eapply Forall_impl; [apply date_digits_digits|].
      intros c Hc'. by apply digit_facts.
    + apply Forall_app; split.
      * inversion Hmsd as [|? ? _ Hrest]; subst.
        apply Forall_app in Hrest as [Hrest _].
        eapply Forall_impl; [exact Hrest|]. intros c Hc'. by apply digit_facts.
      * apply Forall_app; split.
        -- inversion Hmsd as [|? ? _ Hrest]; subst.
           apply Forall_app in Hrest as [_ Hrest].
           eapply Forall_impl; [exact Hrest|].
           intros c Hc'. by apply digit_facts.
        -- repeat constructor.
  - unfold front. rewrite !Forall_app. repeat split.
    1-3: eapply Forall_impl; [apply pad_digits|];
         intros c Hc'; by apply digit_facts.
    + repeat constructor. by eval_ch.
    + eapply Forall_impl; [apply time_digits_digits|].
      intros c Hc'. by apply digit_facts.
  - inversion Hmsd; subst. by apply digit_facts.
Qed.

Lemma branch_timestamp_length (now : Date) :
  year now <= 9999 → length (branch_timestamp now) = 15%nat.
Proof.
  intros Hy. rewrite branch_timestamp_format by done.
  unfold date_digits, time_digits. rewrite !length_app, !pad_length. done.
Qed.

(** ** The branch name *)

(** C5 (as amended).  For every path and every clock reading with a
    four-digit year, the branch name is [docs/], the slug, a hyphen, and the
    fixed-width timestamp [YYYYMMDD-HHMMSS].  The slug is the first 40 code
    units of the path after each slash became a hyphen, each ASCII capital
    became its small letter, and every unit other than an ASCII letter, a
    digit or a hyphen was dropped; it has at most 40 units, all of them in
    [[a-z0-9-]].  For the path [docs/Getting Started.md] the slug is
    [docs-gettingstartedmd], which matches [^[a-z0-9\-]{1,40}$]. *)
Theorem createBranchSlug_shape (path : jsstring) (now : Date) :
  valid_date now = true →
  createBranchSlug path now =
    js "docs/" ++ take 40 (omap slug_unit path) ++ js "-" ++
    date_digits now ++ js "-" ++ time_digits now
  ∧ branch_slug path = take 40 (omap slug_unit path)
  ∧ (length (branch_slug path) ≤ 40)%nat
  ∧ Forall (λ c, slug_pattern_unit c = true) (branch_slug path)
  ∧ length (date_digits now ++ js "-" ++ time_digits now) = 15%nat
  ∧ branch_slug (js "docs/Getting Started.md") = js "docs-gettingstartedmd"
  ∧ matches_slug_pattern (branch_slug (js "docs/Getting Started.md")) = true.
Proof.
  intros Hv.
  assert (year now <= 9999) as Hy.
  { unfold valid_date in Hv. repeat (apply andb_prop in Hv as [Hv _]).
    by apply N.leb_le. }
  split_and!.
  - unfold createBranchSlug.
    by rewrite branch_slug_units, branch_timestamp_format.
  - apply branch_slug_units.
  - apply branch_slug_length.
  - apply branch_slug_pattern.
  - rewrite <- branch_timestamp_format by done.
    by apply branch_timestamp_length.
  - reflexivity.
  - reflexivity.
Qed.

Lemma createBranchSlug_shape_witness :
  valid_date Example.now = true ∧
  createBranchSlug (js "docs/Getting Started.md") Example.now =
    js "docs/docs-gettingstartedmd-20250907-140359".
Proof.
  split; [reflexivity|].
  destruct (createBranchSlug_shape (js "docs/Getting Started.md") Example.now)
    as [H _]; [reflexivity|].
  rewrite H. reflexivity.
Defined.

(** C5, as stated, fails: the path [a/b] has the slug [a-b], where
    lower-casing and stripping what is not a letter or a digit gives [ab]
    (also when hyphens of the path are kept), so the branch name does not
    start with [docs/ab]. *)
Lemma createBranchSlug_not_spec_slugify :
  branch_slug (js "a/b") = js "a-b"
  ∧ spec_slugify (js "a/b") = js "ab"
  ∧ spec_slugify_hyphen (js "a/b") = js "ab"
  ∧ createBranchSlug (js "a/b") Example.now = js "docs/a-b-20250907-140359"
  ∧ ¬ (js "docs/" ++ spec_slugify (js "a/b"))
        `prefix_of` createBranchSlug (js "a/b") Example.now.
Proof.
  repeat split; try reflexivity.
  intros [k Hk]. vm_compute in Hk. discriminate Hk.
Qed.

(** C10.  A path with no ASCII letter, digit, slash or hyphen has the empty
    slug, and its branch name is [docs/-] followed by the timestamp. *)
Theorem createBranchSlug_empty_slug (path : jsstring) (now : Date) :
  Forall (λ c, is_alnum c = false ∧ c ≠ ch "/" ∧ c ≠ ch "-") path →
  branch_slug path = []
  ∧ createBranchSlug path now = js "docs/-" ++ branch_timestamp now.
Proof.
  intros Hp.
  assert (branch_slug path = []) as Hs.
  { rewrite branch_slug_units.
    induction Hp as [|c p [Ha [Hs Hh]] _ IH]; [done|].
    cbn [omap list_omap]. replace (slug_unit c) with (@None N); [done|].
    clear IH. units. }
  split; [done|]. unfold createBranchSlug. by rewrite Hs.
Qed.

Lemma createBranchSlug_empty_slug_witness :
  branch_slug (js "###") = []
  ∧ createBranchSlug (js "###") Example.now = js "docs/-20250907-140359".
Proof.
  destruct (createBranchSlug_empty_slug (js "###") Example.now) as [H1 H2].
  - repeat constructor; by eval_ch.
  - split; [exact H1|]. rewrite H2. reflexivity.
Defined.

(** ** Runs of the handlers *)

Lemma truthy_Some (x : option jsstring) (s : jsstring) :
  truthy x = Some s ↔ x = Some s ∧ nonempty s = true.
Proof.
  unfold truthy. destruct x as [[|c t]|]; cbn;
    (split; [intros ?; by simplify_eq | intros [? ?]; by simplify_eq]).
Qed.

Lemma truthy_None (x : option jsstring) :
  truthy x = None ↔ x = None ∨ x = Some [].
Proof.
  unfold truthy. destruct x as [[|c t]|]; cbn;
    (split; [intros ?; simplify_eq; auto | intros [?|?]; by simplify_eq]).
Qed.

Ltac unfold_run :=
  unfold POST, GET_tree, GET_file, GET_file_alt, try_catch, POST_try,
    GET_tree_try, GET_file_try, resolve_branch, start, response, trace in *;
  unfold mbind, mret, M_bind, M_ret, bind, ret, await in *;
  cbn [world calls fst snd] in *.

(** One step of a run: the next test or provider call, by cases. *)
Ltac run_step :=
  first
    [ progress simplify_eq
    | progress cbn [world calls fst snd app negb event_error result_error]
        in *
    | progress decompose_list_elem_of
    | match goal with
      | H : truthy _ = Some _ |- _ => apply truthy_Some in H as [? ?]
      end
    | case_bool_decide
    | case_match ].

Ltac run_cases := unfold_run; repeat run_step.

Lemma status_error_response (msg : string) (st : N) :
  status (error_response msg st) = st.
Proof. done. Qed.

Section Publish.
Context {W : Type} (octokit : Octokit W) (buffer : Buffer).
Implicit Types (now : Date) (body : CreatePRRequest) (w : W).
Implicit Types (rq : Result CreatePRRequest) (ev : Event).

Local Abbreviation run now rq w := (POST octokit buffer now rq (start w)).

(** C1.  When the content call of a publish answered with a file whose
    blob SHA is not the request's [baseSha], the response is the 409
    conflict carrying that SHA and the decoded content, and the run made
    no branch-creation, commit or pull-request call. *)
Theorem POST_sha_mismatch_conflict now body w a data :
  EvGetContent a (inr (ContentObject data)) ∈ trace (run now (inr body) w) →
  cf_type data = js "file" →
  baseSha body ≠ Some (cf_sha data) →
  response (run now (inr body) w) =
    NextResponse_json
      [("error"%string, JStr (js "File changed upstream"));
       ("upstreamSha"%string, JStr (cf_sha data));
       ("upstreamMarkdown"%string,
        JStr (base64_to_utf8 buffer (cf_content data)))] 409
  ∧ status (response (run now (inr body) w)) = 409
  ∧ Forall (λ ev, is_write ev = false) (trace (run now (inr body) w)).
Proof.
  intros Hin Hfile Hsha.
  run_cases; try done; split_and!; try done; repeat constructor.
Qed.

(** C2.  Whenever a publish makes the commit call, the content call came
    before it in the same run and answered with a file, and the commit
    names that file's blob SHA (the one just compared with [baseSha], and
    equal to it) as the SHA it replaces, at the same path. *)
Theorem POST_commit_parent_sha now rq w a r :
  EvCreateOrUpdateFileContents a r ∈ trace (run now rq w) →
  ∃ ca data before between after body,
    trace (run now rq w) =
      before ++ EvGetContent ca (inr (ContentObject data)) ::
      between ++ EvCreateOrUpdateFileContents a r :: after
    ∧ cf_type data = js "file"
    ∧ gc_path ca = cm_path a
    ∧ cm_sha a = cf_sha data
    ∧ rq = inr body
    ∧ baseSha body = Some (cf_sha data).
Proof.
  intros Hin.
  run_cases; try done;
    first [ by eexists _, _, [], [_; _], _, _
          | by eexists _, _, [_], [_; _], _, _ ].
Qed.

(** C3.  When the content call answered with a file whose blob SHA is the
    request's [baseSha] and no provider call of the run was rejected, the
    last call is the pull-request creation and the response is the
    success (status 200) whose [prUrl] and [prNumber] are the [html_url]
    and [number] of that call's answer. *)
Theorem POST_success now body w a data :
  EvGetContent a (inr (ContentObject data)) ∈ trace (run now (inr body) w) →
  cf_type data = js "file" →
  baseSha body = Some (cf_sha data) →
  Forall (λ ev, event_ok ev = true) (trace (run now (inr body) w)) →
  ∃ pa pr,
    last (trace (run now (inr body) w)) = Some (EvPullsCreate pa (inr pr))
    ∧ response (run now (inr body) w) =
        NextResponse_json
          [("prUrl"%string, JStr (html_url pr));
           ("prNumber"%string, JNum (number pr))] 200
    ∧ status (response (run now (inr body) w)) = 200.
Proof.
  intros Hin Hfile Hsha Hok.
  run_cases; decompose_Forall_hyps; try done; by eexists _, _.
Qed.

(** C4.  Whatever provider call of a publish is rejected, the response is
    decided by the status of the error alone: 401 gives Unauthorized; 403
    gives RateLimited (status 429) when the rate-limit header is ['0'] or
    the message mentions [rate limit], and Unauthorized otherwise; 404
    gives NotFound; 409 gives Conflict; anything else gives Unknown
    (status 500). *)
Theorem POST_error_mapping now rq w ev error :
  ev ∈ trace (run now rq w) →
  event_error ev = Some error →
  response (run now rq w) = POST_catch error
  ∧ (err_status error = Some 401 →
     response (run now rq w) = Unauthorized 401)
  ∧ (err_status error = Some 403 → rate_limit_signal error = true →
     response (run now rq w) = RateLimited)
  ∧ (err_status error = Some 403 → rate_limit_signal error = false →
     response (run now rq w) = Unauthorized 403)
  ∧ (err_status error = Some 404 → response (run now rq w) = NotFound)
  ∧ (err_status error = Some 409 → response (run now rq w) = Conflict)
  ∧ (err_status error ∉ [Some 401; Some 403; Some 404; Some 409] →
     response (run now rq w) = Unknown
     ∧ status (response (run now rq w)) = 500).
Proof.
  intros Hin Herr.
  assert (response (run now rq w) = POST_catch error) as ->.
  { run_cases; done. }
  unfold POST_catch, has_status.
  split_and!; [done|intros Hs..].
  - by rewrite Hs.
  - intros ->. by rewrite Hs.
  - intros ->. by rewrite Hs.
  - by rewrite Hs.
  - by rewrite Hs.
  - repeat case_bool_decide; try done; exfalso; apply Hs; set_solver.
Qed.

(** C9.  When a provider call of a publish is rejected with status 409
    (in particular any call after the comparison of the SHAs), the
    response is the 409 whose body is the error message alone: it has
    neither [upstreamSha] nor [upstreamMarkdown]. *)
Theorem POST_provider_conflict_bare now rq w ev error :
  ev ∈ trace (run now rq w) →
  event_error ev = Some error →
  err_status error = Some 409 →
  response (run now rq w) =
    NextResponse_json
      [("error"%string, JStr (js "File changed upstream"))] 409
  ∧ body (response (run now rq w)) !! "upstreamSha"%string = None
  ∧ body (response (run now rq w)) !! "upstreamMarkdown"%string = None
  ∧ dom (body (response (run now rq w))) = {[ "error"%string ]}.
Proof.
  intros Hin Herr Hs.
  assert (response (run now rq w) = POST_catch error) as ->.
  { run_cases; done. }
  unfold POST_catch, has_status. rewrite Hs. cbn.
  split_and!; done.
Qed.
End Publish.

(** *** The publish theorems on the example repository *)

Lemma POST_sha_mismatch_conflict_witness :
  status (response (POST Example.octokit Example.buffer Example.now
                      (inr (Example.publish "old"))
                      (start Example.repo0))) = 409
  ∧ Forall (λ ev, is_write ev = false)
      (trace (POST Example.octokit Example.buffer Example.now
                (inr (Example.publish "old")) (start Example.repo0))).
Proof.
  apply (POST_sha_mismatch_conflict Example.octokit Example.buffer
           Example.now (Example.publish "old") Example.repo0
           (mkContentArgs (js "acme") (js "site") (js "README.md")
              (Some (js "main")))
           (Example.readme Example.repo0)).
  - vm_compute. right. left.
  - reflexivity.
  - vm_compute. discriminate.
Defined.

Lemma POST_commit_parent_sha_witness :
  ∃ ca data before between after body,
    trace (POST Example.octokit Example.buffer Example.now
             (inr (Example.publish "abc123")) (start Example.repo0)) =
      before ++ EvGetContent ca (inr (ContentObject data)) ::
      between ++ EvCreateOrUpdateFileContents Example.commit (inr ()) :: after
    ∧ cf_type data = js "file"
    ∧ gc_path ca = cm_path Example.commit
    ∧ cm_sha Example.commit = cf_sha data
    ∧ @inr RequestError _ (Example.publish "abc123") = inr body
    ∧ baseSha body = Some (cf_sha data).
Proof.
  apply (POST_commit_parent_sha Example.octokit Example.buffer Example.now
           (inr (Example.publish "abc123")) Example.repo0 Example.commit
           (inr ())).
  vm_compute. do 4 right. left.
Defined.

Lemma POST_success_witness :
  ∃ pa pr,
    last (trace (POST Example.octokit Example.buffer Example.now
                   (inr (Example.publish "abc123")) (start Example.repo0))) =
      Some (EvPullsCreate pa (inr pr))
    ∧ response (POST Example.octokit Example.buffer Example.now
                  (inr (Example.publish "abc123")) (start Example.repo0)) =
        NextResponse_json
          [("prUrl"%string, JStr (html_url pr));
           ("prNumber"%string, JNum (number pr))] 200
    ∧ status (response (POST Example.octokit Example.buffer Example.now
                          (inr (Example.publish "abc123"))
                          (start Example.repo0))) = 200.
Proof.
  apply (POST_success Example.octokit Example.buffer Example.now
           (Example.publish "abc123") Example.repo0
           (mkContentArgs (js "acme") (js "site") (js "README.md")
              (Some (js "main")))
           (Example.readme Example.repo0)).
  - vm_compute. right. left.
  - reflexivity.
  - reflexivity.
  - vm_compute. repeat constructor.
Defined.

Lemma POST_error_mapping_witness :
  response (POST Example.octokit Example.buffer Example.now
              (inr (Example.publish "abc123"))
              (start Example.repo_throttled)) = RateLimited.
Proof.
  destruct (POST_error_mapping Example.octokit Example.buffer Example.now
              (inr (Example.publish "abc123")) Example.repo_throttled
              (EvCreateRef Example.new_ref (inl Example.throttled))
              Example.throttled) as (_ & _ & H & _).
  - vm_compute. do 3 right. left.
  - reflexivity.
  - apply H; reflexivity.
Defined.

Lemma POST_provider_conflict_bare_witness :
  response (POST Example.octokit Example.buffer Example.now
              (inr (Example.publish "abc123")) (start Example.repo_raced)) =
    NextResponse_json
      [("error"%string, JStr (js "File changed upstream"))] 409
  ∧ body (response (POST Example.octokit Example.buffer Example.now
                      (inr (Example.publish "abc123"))
                      (start Example.repo_raced)))
      !! "upstreamSha"%string = None.
Proof.
  destruct (POST_provider_conflict_bare Example.octokit Example.buffer
              Example.now (inr (Example.publish "abc123")) Example.repo_raced
              (EvCreateOrUpdateFileContents Example.commit
                 (inl Example.sha_mismatch))
              Example.sha_mismatch) as (H1 & H2 & _).
  - vm_compute. do 4 right. left.
  - reflexivity.
  - reflexivity.
  - split; [exact H1 | exact H2].
Defined.

(** ** The order of [sort()] and the suffix test *)

Lemma lex_leb_total (a b : jsstring) :
  lex_leb a b = true ∨ lex_leb b a = true.
Proof.
  revert b. induction a as [|x a IH]; intros [|y b]; cbn; auto.
  destruct (IH b) as [H|H]; rewrite H; units; auto.
Qed.

Lemma lex_leb_trans (a b c : jsstring) :
  lex_leb a b = true → lex_leb b c = true → lex_leb a c = true.
Proof.
  revert b c. induction a as [|x a IH]; intros [|y b] [|z c]; cbn; try done.
  intros Hab Hbc.
  destruct (lex_leb a b) eqn:Eab, (lex_leb b c) eqn:Ebc;
    try (rewrite (IH b c) by done); units.
Qed.

#[global] Instance lex_le_total : Total lex_le.
Proof. intros a b. apply lex_leb_total. Qed.

#[global] Instance lex_le_trans : Transitive lex_le.
Proof. intros a b c. apply lex_leb_trans. Qed.

Lemma startsWith_prefix (s p : jsstring) :
  startsWith s p = true ↔ p `prefix_of` s.
Proof.
  revert s. induction p as [|a p IH]; intros s; cbn [startsWith].
  - split; [intros _; apply prefix_nil | destruct s; done].
  - destruct s as [|b s]; cbn [startsWith].
    + split; [done | intros H; by apply prefix_nil_not in H].
    + rewrite andb_true_iff, N.eqb_eq, IH. split.
      * intros [-> H]. by apply prefix_cons.
      * intros H. split; [by eapply prefix_cons_inv_1 |
                          by eapply prefix_cons_inv_2].
Qed.

Lemma endsWith_suffix (s p : jsstring) :
  endsWith s p = true ↔ p `suffix_of` s.
Proof.
  unfold endsWith. by rewrite startsWith_prefix, suffix_prefix_reverse.
Qed.

(** ** The listing *)

Lemma markdown_paths_elem (items : list TreeItem) (p : jsstring) :
  p ∈ markdown_paths items ↔
  ∃ item, item ∈ items
    ∧ item_type item = Some (js "blob")
    ∧ item_path item = Some p
    ∧ (js ".md" `suffix_of` p ∨ js ".markdown" `suffix_of` p).
Proof.
  unfold markdown_paths. rewrite list_elem_of_omap. split.
  - intros (item & Hin & Hp). exists item.
    apply list_elem_of_In, filter_In in Hin as [Hin Hblob].
    apply list_elem_of_In in Hin.
    unfold is_markdown_blob, is_markdown_path in Hblob.
    apply andb_true_iff in Hblob as [Ht Hm].
    apply bool_decide_eq_true in Ht.
    rewrite Hp in Hm. destruct (truthy (Some p)) as [q|] eqn:Hq; [|done].
    apply truthy_Some in Hq as [[= <-] _].
    apply orb_true_iff in Hm. rewrite !endsWith_suffix in Hm. done.
  - intros (item & Hin & Ht & Hp & Hm). exists item. split; [|done].
    apply list_elem_of_In, filter_In. split; [by apply list_elem_of_In|].
    unfold is_markdown_blob, is_markdown_path.
    apply andb_true_iff. split; [by apply bool_decide_eq_true|].
    rewrite Hp.
    assert (truthy (Some p) = Some p) as ->.
    { apply truthy_Some. split; [done|].
      destruct Hm as [Hm|Hm]; apply suffix_length in Hm;
        destruct p; cbn in *; [lia|done|lia|done]. }
    apply orb_true_iff. by rewrite !endsWith_suffix.
Qed.

Lemma markdownFiles_Permutation (items : list TreeItem) :
  markdownFiles items ≡ₚ markdown_paths items.
Proof. apply merge_sort_Permutation. Qed.

Lemma markdownFiles_sorted (items : list TreeItem) :
  StronglySorted lex_le (markdownFiles items).
Proof. apply StronglySorted_merge_sort; apply _. Qed.

Lemma status_GET_tree_catch (error : RequestError) :
  status (GET_tree_catch error) ≠ 200.
Proof. unfold GET_tree_catch. repeat case_match; done. Qed.

Section Listing.
Context {W : Type} (octokit : Octokit W) (buffer : Buffer).
Implicit Types (params : SearchParams) (w : W).

(** C6 (as amended).  When the tree call of a listing answered, the
    response is the 200 whose [files] are exactly the paths of the tree's
    blobs that end in [.md] or [.markdown], sorted by code units; each
    path is listed as many times as the tree has such a blob for it, so
    the list is free of duplicates exactly when the tree's Markdown blobs
    are. *)
Theorem GET_tree_files params w a data :
  EvGetTree a (inr data) ∈ trace (GET_tree octokit params (start w)) →
  status (response (GET_tree octokit params (start w))) = 200
  ∧ body (response (GET_tree octokit params (start w))) !! "files"%string =
      Some (JStrs (markdownFiles (tree data)))
  ∧ (∀ p, p ∈ markdownFiles (tree data) ↔
       ∃ item, item ∈ tree data
         ∧ item_type item = Some (js "blob")
         ∧ item_path item = Some p
         ∧ (js ".md" `suffix_of` p ∨ js ".markdown" `suffix_of` p))
  ∧ StronglySorted lex_le (markdownFiles (tree data))
  ∧ markdownFiles (tree data) ≡ₚ markdown_paths (tree data)
  ∧ (NoDup (markdownFiles (tree data)) ↔
     NoDup (markdown_paths (tree data))).
Proof.
  intros Hin. split_and!.
  - run_cases; done.
  - run_cases; done.
  - intros p. by rewrite markdownFiles_Permutation, markdown_paths_elem.
  - apply markdownFiles_sorted.
  - apply markdownFiles_Permutation.
  - by rewrite markdownFiles_Permutation.
Qed.

(** C7.  When a listing request has no [branch] parameter and answers
    with a listing (status 200), the run asked the provider for the
    repository, and the [branch] of the listing is the [default_branch]
    of that answer. *)
Theorem GET_tree_default_branch params w :
  params !! "branch"%string = None →
  status (response (GET_tree octokit params (start w))) = 200 →
  ∃ owner repo data,
    params !! "owner"%string = Some owner
    ∧ params !! "repo"%string = Some repo
    ∧ head (trace (GET_tree octokit params (start w))) =
        Some (EvReposGet owner repo (inr data))
    ∧ body (response (GET_tree octokit params (start w))) !! "branch"%string
        = Some (JStr (default_branch data)).
Proof.
  intros Hb Hs. pose proof status_GET_tree_catch as Hcatch.
  run_cases; try done; try (by destruct (Hcatch _ Hs)).
  all: by eexists _, _, _.
Qed.

(** C8.  When the content call of a file request answered with a
    directory or with an entry whose type is not [file], the response of
    either revision of the route is the 400 [Not a file]. *)
Theorem GET_file_not_a_file handler params w a data :
  handler ∈ [GET_file octokit buffer; GET_file_alt octokit buffer] →
  EvGetContent a (inr data) ∈ trace (handler params (start w)) →
  is_file data = false →
  response (handler params (start w)) = error_response "Not a file" 400
  ∧ status (response (handler params (start w))) = 400.
Proof.
  intros Hh Hin Hf. unfold is_file in Hf.
  run_cases; done.
Qed.
End Listing.

(** *** The listing theorems on the example repository *)

Lemma GET_tree_files_witness :
  body (response (GET_tree Example.octokit Example.list_site
                    (start Example.repo0))) !! "files"%string =
    Some (JStrs [js "CHANGES.markdown"; js "README.md"; js "docs/guide.md"]).
Proof.
  destruct (GET_tree_files Example.octokit Example.list_site Example.repo0
              Example.tree_args (mkTreeData Example.items)) as (_ & H & _).
  - vm_compute. do 2 right. left.
  - rewrite H. vm_compute. reflexivity.
Defined.

(** C6, as stated, fails: the route sorts the paths but drops none, so a
    tree that names [a.md] twice is listed with [a.md] twice. *)
Lemma GET_tree_files_duplicates :
  body (response (GET_tree Example.octokit Example.list_site
                    (start Example.repo_twice))) !! "files"%string =
    Some (JStrs [js "a.md"; js "a.md"])
  ∧ ¬ NoDup [js "a.md"; js "a.md"].
Proof.
  split; [vm_compute; reflexivity|].
  intros [Hn _]%NoDup_cons. apply Hn. left.
Qed.

Lemma GET_tree_default_branch_witness :
  ∃ owner repo data,
    Example.list_site !! "owner"%string = Some owner
    ∧ Example.list_site !! "repo"%string = Some repo
    ∧ head (trace (GET_tree Example.octokit Example.list_site
                     (start Example.repo0))) =
        Some (EvReposGet owner repo (inr data))
    ∧ body (response (GET_tree Example.octokit Example.list_site
                        (start Example.repo0))) !! "branch"%string =
        Some (JStr (default_branch data)).
Proof.
  apply (GET_tree_default_branch Example.octokit Example.list_site
           Example.repo0).
  - vm_compute. reflexivity.
  - vm_compute. reflexivity.
Defined.

Lemma GET_file_not_a_file_witness :
  response (GET_file Example.octokit Example.buffer Example.fetch_docs
              (start Example.repo0)) = error_response "Not a file" 400
  ∧ status (response (GET_file Example.octokit Example.buffer
                        Example.fetch_docs (start Example.repo0))) = 400.
Proof.
  apply (GET_file_not_a_file Example.octokit Example.buffer
           (GET_file Example.octokit Example.buffer) Example.fetch_docs
           Example.repo0
           (mkContentArgs (js "acme") (js "site") (js "docs") None)
           (ContentArray [Example.guide])).
  - left.
  - vm_compute. left.
  - reflexivity.
Defined.
